(** * reagraph: the [Line] symbol and the [GraphScene] composition

    A shallow embedding of [src/symbols/Line.tsx] and of the [GraphScene]
    component that follows it in the same source file.

    - JavaScript numbers are IEEE-754 doubles: [PrimFloat.float].
    - A value that may be [undefined] (an optional prop, an optional-chained
      read such as [points.from?.x]) is an [option]; [None] is [undefined]
      (or [null], which the operators used here do not tell apart).
    - The objects handed to [useSpring] are records; which of them the
      endpoint spring holds from one render to the next follows the
      dependency list of [useSpring].
    - [onChange] is followed up to its call into three: the model gives the
      arguments it hands to the constructor of the tube, not what three
      makes of them.
    - Event handlers run callbacks supplied by the host application and may
      throw; they are computations in a small trace-and-exception monad. *)

From Stdlib Require Import Floats.PrimFloat.
From Stdlib Require Import Bool List String NArith.
Import ListNotations.

Set Implicit Arguments.

(** ** JavaScript values and operators *)

Module JS.

Definition number := float.

(** [ToBoolean] on a number: [0], [-0] and [NaN] are falsy. *)
Definition truthy_number (f : number) : bool :=
  negb (PrimFloat.eqb f 0%float) && PrimFloat.eqb f f.

(** [ToBoolean] on [boolean | undefined]. *)
Definition truthy_bool (b : option bool) : bool :=
  match b with
  | Some b => b
  | None => false
  end.

(** [ToBoolean] on [string | null | undefined]: the empty string is falsy. *)
Definition truthy_string (s : option string) : bool :=
  match s with
  | Some s => negb (String.eqb s EmptyString)
  | None => false
  end.

(** [v || d] for a number that may be undefined. *)
Definition or_number (v : option number) (d : number) : number :=
  match v with
  | Some f => if truthy_number f then f else d
  | None => d
  end.

(** [Object.is] on [boolean | undefined]. *)
Definition is_bool (a b : option bool) : bool :=
  match a, b with
  | Some a, Some b => Bool.eqb a b
  | None, None => true
  | _, _ => false
  end.

(** [Object.is] on [string | null]. *)
Definition is_string (a b : option string) : bool :=
  match a, b with
  | Some a, Some b => String.eqb a b
  | None, None => true
  | _, _ => false
  end.

(** [Object.is] on [number | undefined]: [NaN] is [NaN], and [0] is not
    [-0]. *)
Definition is_number (a b : option number) : bool :=
  match a, b with
  | Some a, Some b =>
      (negb (PrimFloat.eqb a a) && negb (PrimFloat.eqb b b))
      || (PrimFloat.eqb a b
          && Bool.eqb (PrimFloat.ltb (PrimFloat.div 1%float a) 0%float)
               (PrimFloat.ltb (PrimFloat.div 1%float b) 0%float))
  | None, None => true
  | _, _ => false
  end.

(** Errors a handler can raise. *)
Variant error : Type :=
  | TypeError (msg : string).

(** Result of running a piece of code: a value or a thrown error. *)
Variant completion (A : Type) : Type :=
  | Normal (a : A)
  | Throw (e : error).
Arguments Throw {A} e.

End JS.

(** ** Event handlers: a trace of observable calls, then a completion *)

Module Handler.
Import JS.

(** The callback props of [LineProps]. *)
Variant slot : Type :=
  | OnClick
  | OnActive
  | OnContextMenu
  | OnPointerOver
  | OnPointerOut.

(** A function value supplied by the host application. *)
Variant callback : Type :=
  | HostFn (tag : nat).

(** What a handler does that the outside can observe. *)
Variant effect : Type :=
  | StopPropagation
  | Invoke (s : slot) (f : callback) (args : list bool).

Definition t (A : Type) : Type := (list effect * completion A)%type.

Definition ret {A} (a : A) : t A := ([], Normal a).

Definition bind {A B} (m : t A) (k : A -> t B) : t B :=
  match m with
  | (tr, Normal a) => let (tr', r) := k a in (tr ++ tr', r)
  | (tr, Throw e) => (tr, Throw e)
  end.

Definition trace {A} (m : t A) : list effect := fst m.
Definition outcome {A} (m : t A) : completion A := snd m.

(** [event.stopPropagation()] *)
Definition stopPropagation : t unit := ([StopPropagation], Normal tt).

(** [f(args)]: calling [undefined] throws a [TypeError]. *)
Definition call (s : slot) (f : option callback) (args : list bool) : t unit :=
  match f with
  | Some g => ([Invoke s g args], Normal tt)
  | None => ([], Throw (TypeError "not a function"))
  end.

(** [f?.(args)]: nothing happens when [f] is undefined. *)
Definition call_opt (s : slot) (f : option callback) (args : list bool) : t unit :=
  match f with
  | Some g => ([Invoke s g args], Normal tt)
  | None => ret tt
  end.

(** The prop [s] was called, with whatever function and arguments. *)
Definition invoked (s : slot) (tr : list effect) : Prop :=
  exists f args, In (Invoke s f args) tr.

Definition slot_eqb (a b : slot) : bool :=
  match a, b with
  | OnClick, OnClick
  | OnActive, OnActive
  | OnContextMenu, OnContextMenu
  | OnPointerOver, OnPointerOver
  | OnPointerOut, OnPointerOut => true
  | _, _ => false
  end.

(** Executable version of [invoked]. *)
Definition invokedb (s : slot) (tr : list effect) : bool :=
  existsb (fun e => match e with
                    | Invoke s' _ _ => slot_eqb s s'
                    | StopPropagation => false
                    end) tr.

Definition stopped (tr : list effect) : Prop := In StopPropagation tr.

End Handler.

Declare Scope handler_scope.
Delimit Scope handler_scope with handler.
Notation "c1 ;; c2" := (Handler.bind c1 (fun _ => c2))
  (at level 61, right associativity) : handler_scope.

(** Closes [~ invoked s tr] on a trace that is known call by call. *)
Ltac no_call :=
  let g := fresh "g" in
  let args := fresh "args" in
  let Hin := fresh "Hin" in
  intros (g & args & Hin); simpl in Hin;
  repeat (destruct Hin as [Hin | Hin]; try discriminate Hin);
  try contradiction.

(** ** [Line]: one edge drawn as a tube between two animated endpoints *)

Module Line.
Import JS.
Import Handler.

(** three's [Vector3]. *)
Record Vector3 : Type := { x : number; y : number; z : number }.

(** An argument with the default value 0: the default is taken when the
    argument is absent and when it is [undefined]. *)
Definition argument (i : nat) (args : list (option number)) : number :=
  match nth_error args i with
  | Some (Some f) => f
  | Some None => 0%float
  | None => 0%float
  end.

(** [new Vector3(...args)]; three declares the constructor as
    [constructor(x = 0, y = 0, z = 0)]. *)
Definition Vector3_new (args : list (option number)) : Vector3 :=
  {| x := argument 0 args;
     y := argument 1 args;
     z := argument 2 args |}.

Definition origin : Vector3 :=
  {| x := 0%float; y := 0%float; z := 0%float |}.

(** [EdgeVectors3]; the component reads both ends with [?.], so either may
    be absent. *)
Record EdgeVectors3 : Type := {
  from : option Vector3;
  to : option Vector3
}.

Record LineProps : Type := {
  color : option string;
  size : option number;
  animated : option bool;
  id : string;
  opacity : option number;
  curved : option bool;
  points : EdgeVectors3;
  onClick : option callback;
  onActive : option callback;
  onContextMenu : option callback;
  onPointerOver : option callback;
  onPointerOut : option callback
}.

Definition default {A} (v : option A) (d : A) : option A :=
  match v with
  | Some a => Some a
  | None => Some d
  end.

(** [Line.defaultProps], applied by React to every prop left undefined. *)
Definition defaultProps (p : LineProps) : LineProps :=
  {| color := default (color p) "#000"%string;
     size := default (size p) 1%float;
     animated := animated p;
     id := id p;
     opacity := default (opacity p) 1%float;
     curved := default (curved p) false;
     points := points p;
     onClick := onClick p;
     onActive := onActive p;
     onContextMenu := onContextMenu p;
     onPointerOver := onPointerOver p;
     onPointerOut := onPointerOut p |}.

(** The same props with the [curved] prop set to [c]. *)
Definition with_curved (c : bool) (p : LineProps) : LineProps :=
  {| color := color p;
     size := size p;
     animated := animated p;
     id := id p;
     opacity := opacity p;
     curved := Some c;
     points := points p;
     onClick := onClick p;
     onActive := onActive p;
     onContextMenu := onContextMenu p;
     onPointerOver := onPointerOver p;
     onPointerOut := onPointerOut p |}.

(** The values animated by the two springs. *)
Record Opacity : Type := { lineOpacity : option number }.

Record Vertices : Type := {
  fromVertices : list (option number);
  toVertices : list (option number)
}.

(** [event.value] in [onChange]: the animated values at the current frame,
    in the shape of the spring's [from] and [to].  Once the spring has
    arrived, the frame is its [to]. *)
Definition Frame : Type := Vertices.

Record CatmullRomCurve3 : Type := { curve_points : list Vector3 }.

(** The arguments of [new TubeBufferGeometry(path, tubularSegments, radius,
    radialSegments, closed)].  What three's constructor builds from them,
    and whether it completes, is not part of this record. *)
Record TubeArguments : Type := {
  path : CatmullRomCurve3;
  tubularSegments : N;
  radius : number;
  radialSegments : N;
  closed : bool
}.

(** A geometry object of three, as held by [tubeRef.current]. *)
Variant Geometry : Type :=
  | GeometryObject (tag : nat).

(** What [onChange] does, up to its call into three: it throws before
    reaching three, or it asks for [target.copy(new TubeBufferGeometry(...))]
    with the given arguments.  The constructor and [copy] are three's; they
    may themselves throw. *)
Variant change : Type :=
  | Thrown (e : error)
  | CopyNewTube (target : Geometry) (arguments : TubeArguments).

(** [event.nativeEvent.buttons] of a pointer event. *)
Record PointerEvent : Type := { buttons : N }.

(** [?.x], [?.y], [?.z] on an endpoint that may be missing. *)
Definition chain (v : option Vector3) (field : Vector3 -> number) : option number :=
  match v with
  | Some p => Some (field p)
  | None => None
  end.

(** [[v?.x, v?.y, v?.z || 0]] *)
Definition target (v : option Vector3) : list (option number) :=
  [chain v x; chain v y; Some (or_number (chain v z) 0%float)].

(** A number in arithmetic position: [undefined] becomes [NaN]. *)
Definition to_number (v : option number) : number :=
  match v with
  | Some f => f
  | None => PrimFloat.nan
  end.

Section WithUtils.

(** [animationConfig] and [getCurvePoints] are imported from [../utils]. *)
Variable AnimationConfig : Type.
Variable animationConfig : AnimationConfig.
Variable getCurvePoints : Vector3 -> Vector3 -> list Vector3.

(** [{ ...animationConfig, duration: d }] *)
Record SpringConfig : Type := {
  spread : AnimationConfig;
  duration : option number
}.

(** The object given to the first [useSpring]. *)
Record OpacitySpring : Type := {
  opacity_from : Opacity;
  opacity_to : Opacity;
  opacity_config : SpringConfig
}.

(** The object returned by the function given to the second [useSpring]. *)
Record VerticesSpring : Type := {
  vertices_from : Vertices;
  vertices_to : Vertices;
  onChange : Frame -> option Geometry -> change;
  vertices_config : SpringConfig
}.

(** The [<mesh>] element. *)
Record Mesh : Type := {
  userData : string * string;
  mesh_onPointerOver : Handler.t unit;
  mesh_onPointerOut : Handler.t unit;
  mesh_onClick : option callback;
  mesh_onPointerDown : PointerEvent -> Handler.t unit;
  material_opacity : OpacitySpring;
  material_color : option string
}.

Record Rendered : Type := {
  vertices_spring : VerticesSpring;
  mesh : Mesh
}.

Definition opacitySpring (animated : option bool) (opacity : option number)
  : OpacitySpring :=
  {| opacity_from := {| lineOpacity := Some 0%float |};
     opacity_to := {| lineOpacity := opacity |};
     opacity_config :=
       {| spread := animationConfig;
          duration := if truthy_bool animated then None else Some 0%float |} |}.

(** The curve of the tube: through [getCurvePoints] when [curved], the two
    endpoint vectors alone otherwise. *)
Definition curve (curved : bool) (fromVector toVector : Vector3)
  : CatmullRomCurve3 :=
  let curvePoints := getCurvePoints fromVector toVector in
  if curved
  then {| curve_points := curvePoints |}
  else {| curve_points := [fromVector; toVector] |}.

Definition tubeArguments (curved : bool) (size : option number) (event : Frame)
  : TubeArguments :=
  let fromVector := Vector3_new (fromVertices event) in
  let toVector := Vector3_new (toVertices event) in
  {| path := curve curved fromVector toVector;
     tubularSegments := 20;
     radius := PrimFloat.div (to_number size) 2%float;
     radialSegments := 5;
     closed := false |}.

(** The body of [onChange].  The last statement is
    [tubeRef.current.copy(new TubeBufferGeometry(...))]: [tubeRef.current] is
    [null] until the geometry element is mounted, and reading [copy] off
    [null] throws before the constructor is called. *)
Definition handleChange (curved : bool) (size : option number) (event : Frame)
  (tubeRef : option Geometry) : change :=
  let arguments := tubeArguments curved size event in
  match tubeRef with
  | Some current => CopyNewTube current arguments
  | None => Thrown (TypeError "tubeRef.current is null")
  end.

Definition verticesSpring (animated : option bool) (draggingId : option string)
  (points : EdgeVectors3) (size : option number) (curved : bool)
  : VerticesSpring :=
  {| vertices_from :=
       {| fromVertices := [Some 0%float; Some 0%float; Some 0%float];
          toVertices := [Some 0%float; Some 0%float; Some 0%float] |};
     vertices_to :=
       {| fromVertices := target (from points);
          toVertices := target (to points) |};
     onChange := handleChange curved size;
     vertices_config :=
       {| spread := animationConfig;
          duration :=
            if truthy_bool animated && negb (truthy_string draggingId)
            then None
            else Some 0%float |} |}.

Local Open Scope handler_scope.

Definition handlePointerOver (onActive onPointerOver : option callback)
  : Handler.t unit :=
  call OnActive onActive [true] ;;
  call_opt OnPointerOver onPointerOver [].

Definition handlePointerOut (onActive onPointerOut : option callback)
  : Handler.t unit :=
  call OnActive onActive [false] ;;
  call_opt OnPointerOut onPointerOut [].

Definition handlePointerDown (onContextMenu : option callback)
  (event : PointerEvent) : Handler.t unit :=
  if N.eqb (buttons event) 2
  then stopPropagation ;; call OnContextMenu onContextMenu []
  else ret tt.

(** The function component, on the props as React hands them over (see
    [Line]) and the [draggingId] selected from the store. *)
Definition render (props : LineProps) (draggingId : option string) : Rendered :=
  let curved :=
    match curved props with
    | Some c => c
    | None => false
    end in
  {| vertices_spring :=
       verticesSpring (animated props) draggingId (points props)
         (size props) curved;
     mesh :=
       {| userData := (id props, "edge"%string);
          mesh_onPointerOver :=
            handlePointerOver (onActive props) (onPointerOver props);
          mesh_onPointerOut :=
            handlePointerOut (onActive props) (onPointerOut props);
          mesh_onClick := onClick props;
          mesh_onPointerDown := handlePointerDown (onContextMenu props);
          material_opacity := opacitySpring (animated props) (opacity props);
          material_color := color props |} |}.

(** Rendering [<Line {...props} />]. *)
Definition Line (props : LineProps) (draggingId : option string) : Rendered :=
  render (defaultProps props) draggingId.

(** The duration the component gives to the spring of the endpoints. *)
Definition verticesDuration (props : LineProps) (draggingId : option string)
  : option number :=
  duration (vertices_config (vertices_spring (Line props draggingId))).

(** The duration the component gives to the spring of the opacity. *)
Definition opacityDuration (props : LineProps) (draggingId : option string)
  : option number :=
  duration (opacity_config (material_opacity (mesh (Line props draggingId)))).

(** *** The second [useSpring] from one render to the next

    [useSpring(fn, deps)] calls [fn] on the first render, and on a later
    render only if an entry of [deps], here
    [[animated, draggingId, points, size]], differs from its value in the
    previous render, compared with [Object.is]; otherwise the spring keeps
    the object it was given last, its [onChange] included. *)

(** A mounted line: the props and drag state of its last render, and the
    object the spring holds. *)
Record Mounted : Type := {
  last_props : LineProps;
  last_draggingId : option string;
  installed : VerticesSpring
}.

(** No entry of the dependency list changed.  [points] is an object, which
    [Object.is] compares by identity: [samePoints] tells whether the render
    was handed the very object of the previous render. *)
Definition sameDeps (samePoints : bool) (prev next : LineProps)
  (prevDraggingId nextDraggingId : option string) : bool :=
  is_bool (animated prev) (animated next)
  && is_string prevDraggingId nextDraggingId
  && samePoints
  && is_number (size prev) (size next).

(** The first render. *)
Definition mount (props : LineProps) (draggingId : option string) : Mounted :=
  {| last_props := defaultProps props;
     last_draggingId := draggingId;
     installed := vertices_spring (Line props draggingId) |}.

(** A later render. *)
Definition rerender (m : Mounted) (samePoints : bool) (props : LineProps)
  (draggingId : option string) : Mounted :=
  {| last_props := defaultProps props;
     last_draggingId := draggingId;
     installed :=
       if sameDeps samePoints (last_props m) (defaultProps props)
            (last_draggingId m) draggingId
       then installed m
       else vertices_spring (Line props draggingId) |}.

(** What one later render is given: the props, the drag state selected
    from the store, and whether [points] is the object of the render
    before. *)
Record Update : Type := {
  update_props : LineProps;
  update_draggingId : option string;
  update_samePoints : bool
}.

(** A mounted line after a sequence of later renders. *)
Definition rerenders (m : Mounted) (updates : list Update) : Mounted :=
  fold_left
    (fun m u =>
       rerender m (update_samePoints u) (update_props u) (update_draggingId u))
    updates m.


End WithUtils.

End Line.

(** ** [GraphScene]: the store projected into one element per node and edge *)

Module GraphScene.

Section WithTypes.

(** Types imported from [./types], [./utils], [./symbols] and
    [ngraph.graph]; the component only passes their values along. *)
Variables Theme Graph NodeData EdgeData : Type.
Variables ContextMenu EdgeLabelPosition EdgeArrowPosition : Type.
Variables NodeCallback EdgeCallback GraphProps : Type.

Record InternalGraphNode : Type := {
  node_id : string;
  node_data : NodeData
}.

Record InternalGraphEdge : Type := {
  edge_id : string;
  edge_data : EdgeData
}.

(** The part of the shared store that the two components select from. *)
Record Store : Type := {
  graph : Graph;
  nodes : list InternalGraphNode;
  edges : list InternalGraphEdge;
  draggingId : option string
}.

Record GraphSceneProps : Type := {
  onNodeClick : option NodeCallback;
  onNodeContextMenu : option NodeCallback;
  onEdgeContextMenu : option EdgeCallback;
  onEdgeClick : option EdgeCallback;
  onEdgePointerOver : option EdgeCallback;
  onEdgePointerOut : option EdgeCallback;
  onNodePointerOver : option NodeCallback;
  onNodePointerOut : option NodeCallback;
  contextMenu : option ContextMenu;
  theme : Theme;
  animated : option bool;
  disabled : option bool;
  draggable : option bool;
  edgeLabelPosition : option EdgeLabelPosition;
  edgeArrowPosition : option EdgeArrowPosition;
  labelFontUrl : option string;
  edgeShape : option string;
  rest : GraphProps
}.

(** Props of one [<Node>] element. *)
Record NodeElement : Type := {
  node_key : string;
  node_prop_id : string;
  node_labelFontUrl : option string;
  node_draggable : option bool;
  node_disabled : option bool;
  node_animated : option bool;
  node_theme : Theme;
  node_contextMenu : option ContextMenu;
  node_onClick : option NodeCallback;
  node_onContextMenu : option NodeCallback;
  node_onPointerOver : option NodeCallback;
  node_onPointerOut : option NodeCallback
}.

(** Props of one [<Edge>] element. *)
Record EdgeElement : Type := {
  edge_theme : Theme;
  edge_key : string;
  edge_prop_id : string;
  edge_disabled : option bool;
  edge_animated : option bool;
  edge_curved : bool;
  edge_labelPlacement : option EdgeLabelPosition;
  edge_arrowPlacement : option EdgeArrowPosition;
  edge_contextMenu : option ContextMenu;
  edge_onClick : option EdgeCallback;
  edge_onContextMenu : option EdgeCallback;
  edge_onPointerOver : option EdgeCallback;
  edge_onPointerOut : option EdgeCallback
}.

(** The returned [<Fragment>]: the array of nodes, then the array of
    edges. *)
Record Fragment : Type := {
  node_elements : list NodeElement;
  edge_elements : list EdgeElement
}.

(** What the camera is asked to frame. *)
Record CameraRequest : Type := {
  focus : list InternalGraphNode;
  request_animated : option bool
}.

Record GraphSceneRef : Type := {
  ref_graph : Graph;
  centerGraph : option (list string) -> CameraRequest
}.

(** Modelled from the spec: [useCenterGraph] of [./CameraControls], which is
    not among the sources verified here.  Its [centerNodesById],
    called without an argument, centers on all nodes of the store; called
    with a list of ids it centers on the nodes with these ids. *)
Definition centerNodesById (store : Store) (animated : option bool)
  (ids : option (list string)) : CameraRequest :=
  match ids with
  | None =>
      {| focus := nodes store; request_animated := animated |}
  | Some ids =>
      {| focus :=
           filter (fun n => existsb (String.eqb (node_id n)) ids)
             (nodes store);
         request_animated := animated |}
  end.

(** The selector given to [useStore]. *)
Definition select (state : Store) : Graph * list string * list string :=
  (graph state, map node_id (nodes state), map edge_id (edges state)).

Definition renderNode (props : GraphSceneProps) (n : string) : NodeElement :=
  {| node_key := n;
     node_prop_id := n;
     node_labelFontUrl := labelFontUrl props;
     node_draggable := draggable props;
     node_disabled := disabled props;
     node_animated := animated props;
     node_theme := theme props;
     node_contextMenu := contextMenu props;
     node_onClick := onNodeClick props;
     node_onContextMenu := onNodeContextMenu props;
     node_onPointerOver := onNodePointerOver props;
     node_onPointerOut := onNodePointerOut props |}.

Definition renderEdge (props : GraphSceneProps) (e : string) : EdgeElement :=
  let edgeShape :=
    match edgeShape props with
    | Some s => s
    | None => "line"%string
    end in
  {| edge_theme := theme props;
     edge_key := e;
     edge_prop_id := e;
     edge_disabled := disabled props;
     edge_animated := animated props;
     edge_curved := String.eqb edgeShape "curve";
     edge_labelPlacement := edgeLabelPosition props;
     edge_arrowPlacement := edgeArrowPosition props;
     edge_contextMenu := contextMenu props;
     edge_onClick := onEdgeClick props;
     edge_onContextMenu := onEdgeContextMenu props;
     edge_onPointerOver := onEdgePointerOver props;
     edge_onPointerOut := onEdgePointerOut props |}.

(** The handle installed by [useImperativeHandle]. *)
Definition handle (props : GraphSceneProps) (state : Store) : GraphSceneRef :=
  let '(graph, _, _) := select state in
  let centerGraph := centerNodesById state (animated props) in
  {| centerGraph := centerGraph; ref_graph := graph |}.

(** The element tree returned by the component.  [useGraph(rest)] is the
    hook that builds the graph of the store out of the remaining props; the
    elements are computed from the state selected from the store. *)
Definition GraphScene (props : GraphSceneProps) (state : Store) : Fragment :=
  let '(_, nodeIds, edgeIds) := select state in
  {| node_elements := map (renderNode props) nodeIds;
     edge_elements := map (renderEdge props) edgeIds |}.

End WithTypes.

End GraphScene.

(** ** [getCurvePoints] *)

Module Utils.
Import Line.

(** Modelled from the spec: [getCurvePoints] of [../utils], which is not
    among the sources verified here.  The spec has the curved path run from
    one endpoint to the other "through auxiliary control points" ("the
    midpoint control points") "without changing the endpoints"; how the
    auxiliary points are computed is left to [aux]. *)
Definition getCurvePoints (aux : Vector3 -> Vector3 -> list Vector3)
  (from to : Vector3) : list Vector3 :=
  from :: aux from to ++ [to].

End Utils.

(** ** Concrete inputs *)

Module Examples.
Import JS.
Import Handler.
Import Line.

Definition v (a b c : number) : Vector3 := {| x := a; y := b; z := c |}.

(** The midpoint of the two ends, as the one auxiliary point. *)
Definition midpoint (a b : Vector3) : list Vector3 :=
  [v (PrimFloat.div (PrimFloat.add (x a) (x b)) 2%float)
     (PrimFloat.div (PrimFloat.add (y a) (y b)) 2%float)
     (PrimFloat.div (PrimFloat.add (z a) (z b)) 2%float)].

Definition bothEnds : EdgeVectors3 :=
  {| from := Some (v 1%float 2%float 3%float);
     to := Some (v 4%float 5%float 6%float) |}.

Definition noEnds : EdgeVectors3 := {| from := None; to := None |}.

Definition noFrom : EdgeVectors3 :=
  {| from := None; to := Some (v 4%float 5%float 6%float) |}.

(** A [<Line>] with every callback, animated. *)
Definition full (pts : EdgeVectors3) : LineProps :=
  {| color := None;
     size := None;
     animated := Some true;
     id := "e-1"%string;
     opacity := None;
     curved := Some false;
     points := pts;
     onClick := Some (HostFn 0);
     onActive := Some (HostFn 1);
     onContextMenu := Some (HostFn 2);
     onPointerOver := Some (HostFn 3);
     onPointerOut := Some (HostFn 4) |}.

(** A [<Line>] with the required props only. *)
Definition bare (pts : EdgeVectors3) : LineProps :=
  {| color := None;
     size := None;
     animated := None;
     id := "e-2"%string;
     opacity := None;
     curved := None;
     points := pts;
     onClick := None;
     onActive := None;
     onContextMenu := None;
     onPointerOver := None;
     onPointerOut := None |}.

Definition frame : Frame :=
  {| fromVertices := [Some 1%float; Some 2%float; Some 3%float];
     toVertices := [Some 4%float; Some 5%float; Some 6%float] |}.

(** The geometry object of a mounted [<tubeBufferGeometry>]. *)
Definition mounted : Geometry := GeometryObject 0.

Definition rightButton : PointerEvent := {| buttons := 2 |}.
Definition leftButton : PointerEvent := {| buttons := 1 |}.

(** [Line] with [animationConfig] left opaque and [getCurvePoints] as
    modelled in [Utils]. *)
Definition line (props : LineProps) (draggingId : option string)
  : Rendered unit :=
  Line.Line tt (Utils.getCurvePoints midpoint) props draggingId.

(** A scene with curved edges and no callbacks; themes are numbered. *)
Definition sceneProps
  : GraphScene.GraphSceneProps nat unit unit unit unit unit unit :=
  {| GraphScene.onNodeClick := None;
     GraphScene.onNodeContextMenu := None;
     GraphScene.onEdgeContextMenu := None;
     GraphScene.onEdgeClick := None;
     GraphScene.onEdgePointerOver := None;
     GraphScene.onEdgePointerOut := None;
     GraphScene.onNodePointerOver := None;
     GraphScene.onNodePointerOut := None;
     GraphScene.contextMenu := None;
     GraphScene.theme := 7;
     GraphScene.animated := Some true;
     GraphScene.disabled := None;
     GraphScene.draggable := Some true;
     GraphScene.edgeLabelPosition := Some tt;
     GraphScene.edgeArrowPosition := None;
     GraphScene.labelFontUrl := None;
     GraphScene.edgeShape := Some "curve"%string;
     GraphScene.rest := tt |}.

Definition store : GraphScene.Store unit nat nat :=
  {| GraphScene.graph := tt;
     GraphScene.nodes :=
       [ {| GraphScene.node_id := "a"%string; GraphScene.node_data := 1 |};
         {| GraphScene.node_id := "b"%string; GraphScene.node_data := 2 |};
         {| GraphScene.node_id := "c"%string; GraphScene.node_data := 3 |} ];
     GraphScene.edges :=
       [ {| GraphScene.edge_id := "a->b"%string; GraphScene.edge_data := 7 |} ];
     GraphScene.draggingId := None |}.

End Examples.

(** ** Observations and further inputs *)

Module Observe.
Import JS.
Import Handler.
Import Line.

(** [Number.isNaN]: [NaN] is the one number that differs from itself. *)
Definition isNaN (f : number) : bool := negb (PrimFloat.eqb f f).

(** The handler threw. *)
Definition throws {A} (m : Handler.t A) : bool :=
  match outcome m with
  | Throw _ => true
  | Normal _ => false
  end.

(** The left and the right button held together: [buttons] is a bit mask. *)
Definition leftAndRight : PointerEvent := {| buttons := 3 |}.

(** [Examples.full bothEnds] with [curved] true and [size] 2. *)
Definition thickCurved : LineProps :=
  {| color := None;
     size := Some 2%float;
     animated := Some true;
     id := "e-1"%string;
     opacity := None;
     curved := Some true;
     points := Examples.bothEnds;
     onClick := Some (HostFn 0);
     onActive := Some (HostFn 1);
     onContextMenu := Some (HostFn 2);
     onPointerOver := Some (HostFn 3);
     onPointerOut := Some (HostFn 4) |}.

(** The [i]-th component of a vertex array, [undefined] out of range. *)
Definition component (i : nat) (vertices : list (option number)) : option number :=
  match nth_error vertices i with
  | Some c => c
  | None => None
  end.

(** The store of [Examples.store] after a layout step and during a drag:
    the same ids, other node and edge data. *)
Definition storeMoved : GraphScene.Store unit nat nat :=
  {| GraphScene.graph := tt;
     GraphScene.nodes :=
       [ {| GraphScene.node_id := "a"%string; GraphScene.node_data := 10 |};
         {| GraphScene.node_id := "b"%string; GraphScene.node_data := 20 |};
         {| GraphScene.node_id := "c"%string; GraphScene.node_data := 30 |} ];
     GraphScene.edges :=
       [ {| GraphScene.edge_id := "a->b"%string; GraphScene.edge_data := 70 |} ];
     GraphScene.draggingId := Some "a"%string |}.

End Observe.

(** * Properties of handler traces *)

Section HandlerProperties.
Import Handler.

Lemma slot_eqb_eq (a b : slot) : slot_eqb a b = true <-> a = b.
Proof.
  split.
  - destruct a, b; simpl; intros H; try reflexivity; discriminate H.
  - intros <-. destruct a; reflexivity.
Qed.

(** [invokedb] decides [invoked]. *)
Lemma invokedb_spec (s : slot) (tr : list effect) :
  invokedb s tr = true <-> invoked s tr.
Proof.
  unfold invokedb, invoked. rewrite existsb_exists. split.
  - intros ([| s' f args] & Hin & Heq); [discriminate Heq |].
    apply slot_eqb_eq in Heq. subst s'. now exists f, args.
  - intros (f & args & Hin).
    exists (Invoke s f args). split; trivial.
    now apply slot_eqb_eq.
Qed.

End HandlerProperties.

(** * Properties of [Line] *)

Section LineProperties.
Import JS.
Import Handler.
Import Line.

Variable AnimationConfig : Type.
Variable animationConfig : AnimationConfig.
Variable getCurvePoints : Vector3 -> Vector3 -> list Vector3.

Local Abbreviation Line := (Line.Line animationConfig getCurvePoints).
Local Abbreviation verticesDuration :=
  (Line.verticesDuration animationConfig getCurvePoints).
Local Abbreviation opacityDuration :=
  (Line.opacityDuration animationConfig getCurvePoints).

(** [defaultProps] fills in [color], [size], [opacity] and [curved] only. *)
Lemma defaultProps_keeps (p : LineProps) :
  animated (defaultProps p) = animated p
  /\ points (defaultProps p) = points p
  /\ onClick (defaultProps p) = onClick p
  /\ onActive (defaultProps p) = onActive p
  /\ onContextMenu (defaultProps p) = onContextMenu p.
Proof. repeat split. Qed.

Lemma verticesDuration_eq props draggingId :
  verticesDuration props draggingId =
    if truthy_bool (animated props) && negb (truthy_string draggingId)
    then None
    else Some 0%float.
Proof. reflexivity. Qed.

(** The targets of the endpoints are read off [points]. *)
Lemma Line_targets props draggingId :
  let goal := vertices_to (vertices_spring (Line props draggingId)) in
  fromVertices goal = target (from (points props))
  /\ toVertices goal = target (to (points props)).
Proof. split; reflexivity. Qed.

(** C1: while a node is being dragged ([draggingId] holds an id, which is
    what [!draggingId] tests), the spring of the endpoints has duration 0,
    whatever the [animated] prop is: the endpoints are moved at once. *)
Theorem Line_drag_endpoints_immediate :
  forall (props : LineProps) (draggingId : option string),
    truthy_string draggingId = true ->
    verticesDuration props draggingId = Some 0%float.
Proof.
  intros props draggingId Hdrag.
  rewrite verticesDuration_eq, Hdrag.
  now rewrite andb_false_r.
Qed.

(** Without a drag the endpoints are animated exactly when [animated] is
    true. *)
Lemma Line_idle_endpoints_follow_animated :
  forall (props : LineProps) (draggingId : option string),
    truthy_string draggingId = false ->
    verticesDuration props draggingId =
      if truthy_bool (animated props) then None else Some 0%float.
Proof.
  intros props draggingId Hidle.
  rewrite verticesDuration_eq, Hidle.
  now rewrite andb_true_r.
Qed.

(** C6, as amended: the opacity is animated (no fixed duration) when
    [animated] is true and immediate (duration 0) otherwise; the drag state
    has no part in it, the whole opacity spring is the same with and without
    a drag. *)
Theorem Line_opacity_follows_animated_only :
  forall (props : LineProps) (draggingId : option string),
    opacityDuration props draggingId =
      (if truthy_bool (animated props) then None else Some 0%float)
    /\ material_opacity (mesh (Line props draggingId)) =
         material_opacity (mesh (Line props None)).
Proof.
  intros props draggingId; split; reflexivity.
Qed.

(** C10: the spring of the endpoints always starts at the origin: its
    [from] has both [fromVertices] and [toVertices] at (0, 0, 0) whatever
    [points] is, and its [to] holds the targets computed from [points], so
    the first transition runs from the origin to the targets. *)
Theorem Line_endpoints_start_at_origin :
  forall (props : LineProps) (draggingId : option string),
    let spring := vertices_spring (Line props draggingId) in
    let origin := [Some 0%float; Some 0%float; Some 0%float] in
    vertices_from spring =
      {| fromVertices := origin; toVertices := origin |}
    /\ vertices_to spring =
         {| fromVertices := target (from (points props));
            toVertices := target (to (points props)) |}.
Proof.
  intros props draggingId spring origin.
  subst spring origin; unfold Line, Line.Line, render; simpl.
  split; reflexivity.
Qed.

(** What [onChange] asks of three when the tube is mounted. *)
Lemma onChange_builds_tube props draggingId event current :
  onChange (vertices_spring (Line props draggingId)) event (Some current) =
    CopyNewTube current
      (tubeArguments getCurvePoints
         (match curved props with Some c => c | None => false end)
         (default (size props) 1%float) event).
Proof.
  unfold Line.Line, render, verticesSpring, handleChange; simpl.
  destruct (curved props) as [c|]; reflexivity.
Qed.

(** C3: a missing endpoint is treated as the origin.  Its target in the
    spring is [[undefined, undefined, 0]], and the vector that [onChange]
    builds from it with [new Vector3(...)], once the spring has arrived
    there, is (0, 0, 0); the curve handed to the constructor of the tube is
    built from these vectors. *)
Theorem Line_missing_endpoint_is_origin :
  forall (props : LineProps) (draggingId : option string) (current : Geometry),
    let spring := vertices_spring (Line props draggingId) in
    let arrived := vertices_to spring in
    (from (points props) = None ->
       fromVertices arrived = [None; None; Some 0%float]
       /\ Vector3_new (fromVertices arrived) = origin)
    /\ (to (points props) = None ->
          toVertices arrived = [None; None; Some 0%float]
          /\ Vector3_new (toVertices arrived) = origin)
    /\ exists arguments,
         onChange spring arrived (Some current) = CopyNewTube current arguments
         /\ path arguments =
              curve getCurvePoints
                (match curved props with Some c => c | None => false end)
                (Vector3_new (fromVertices arrived))
                (Vector3_new (toVertices arrived)).
Proof.
  intros props draggingId current spring arrived.
  destruct (Line_targets props draggingId) as [Hf Ht].
  fold spring in Hf, Ht. fold arrived in Hf, Ht.
  split; [| split].
  - intros Hmissing. rewrite Hf, Hmissing. split; reflexivity.
  - intros Hmissing. rewrite Ht, Hmissing. split; reflexivity.
  - eexists. split.
    + apply onChange_builds_tube.
    + reflexivity.
Qed.


Lemma handlePointerDown_cases (f : option callback) (event : PointerEvent) :
  (buttons event = 2%N
   /\ handlePointerDown f event =
        Handler.bind stopPropagation (fun _ => call OnContextMenu f []))
  \/ (buttons event <> 2%N /\ handlePointerDown f event = Handler.ret tt).
Proof.
  unfold handlePointerDown.
  destruct (N.eqb_spec (buttons event) 2) as [Heq | Hneq]; [left | right];
    split; trivial.
Qed.

(** C2: a pointer-down on the mesh of a [Line] stops the propagation of the
    event if and only if [buttons] is 2, and its handler never calls
    [onClick]; on a [Line] that was given an [onContextMenu] callback, the
    callback is called and the propagation stopped (and [onClick] not called)
    if and only if [buttons] is 2, and the handler completes without an
    error. *)
Theorem Line_right_button_opens_context_menu :
  forall (props : LineProps) (draggingId : option string)
         (event : PointerEvent),
    let run := mesh_onPointerDown (mesh (Line props draggingId)) event in
    (buttons event = 2%N <-> stopped (trace run))
    /\ ~ invoked OnClick (trace run)
    /\ (forall f : callback,
          onContextMenu props = Some f ->
          (buttons event = 2%N <->
             invoked OnContextMenu (trace run) /\ stopped (trace run)
             /\ ~ invoked OnClick (trace run))
          /\ outcome run = Normal tt).
Proof.
  intros props draggingId event run.
  assert (Hrun : run = handlePointerDown (onContextMenu props) event)
    by reflexivity.
  destruct (handlePointerDown_cases (onContextMenu props) event)
    as [[Hright Hcase] | [Hother Hcase]];
    rewrite Hcase in Hrun; rewrite Hrun; clear Hrun Hcase run.
  - (* right button *)
    assert (Hstop : forall o, stopped
              (trace (Handler.bind stopPropagation
                        (fun _ => call OnContextMenu o [])))).
    { intros [g|]; unfold stopped; simpl; auto. }
    assert (Hnoclick : forall o, ~ invoked OnClick
              (trace (Handler.bind stopPropagation
                        (fun _ => call OnContextMenu o [])))).
    { intros [g|]; no_call. }
    split; [split; auto |].
    split; [apply Hnoclick |].
    intros f ->. split; [| reflexivity].
    split; [intros _ | trivial].
    split; [| split; [apply Hstop | apply Hnoclick]].
    exists f, []. simpl. auto.
  - (* any other combination of buttons *)
    split; [split; [contradiction | intros []] |].
    split; [no_call |].
    intros f _. split; [| reflexivity].
    split; [contradiction | intros (_ & [] & _)].
Qed.

(** C9: [onActive] and [onContextMenu] are optional props, and
    [defaultProps] does not supply them; on a [Line] mounted without them,
    pointer-over and pointer-out throw a [TypeError] before anything else
    is called, and a right-button pointer-down throws one after stopping
    the propagation. *)
Theorem Line_unguarded_callbacks_throw :
  forall (props : LineProps) (draggingId : option string),
    onActive props = None ->
    onContextMenu props = None ->
    let m := mesh (Line props draggingId) in
    mesh_onPointerOver m = ([], Throw (TypeError "not a function"))
    /\ mesh_onPointerOut m = ([], Throw (TypeError "not a function"))
    /\ (forall event, buttons event = 2%N ->
          mesh_onPointerDown m event =
            ([StopPropagation], Throw (TypeError "not a function"))).
Proof.
  intros props draggingId Hactive Hmenu m; subst m; simpl.
  rewrite Hactive, Hmenu.
  repeat split.
  intros event Hright.
  unfold handlePointerDown. now rewrite Hright.
Qed.

(** The guarded callbacks, by contrast, may be left out. *)
Lemma Line_guarded_callbacks_are_optional :
  forall (props : LineProps) (draggingId : option string) (f : callback),
    onActive props = Some f ->
    onPointerOver props = None ->
    mesh_onPointerOver (mesh (Line props draggingId)) =
      ([Invoke OnActive f [true]], Normal tt).
Proof.
  intros props draggingId f Hactive Hover; simpl.
  now rewrite Hactive, Hover.
Qed.

End LineProperties.

(** ** The endpoint spring from one render to the next *)

Section LineRerender.
Import JS.
Import Line.

Variable AnimationConfig : Type.
Variable animationConfig : AnimationConfig.
Variable getCurvePoints : Vector3 -> Vector3 -> list Vector3.

Local Abbreviation mount := (Line.mount animationConfig getCurvePoints).
Local Abbreviation rerender := (Line.rerender animationConfig getCurvePoints).

Lemma is_bool_refl (a : option bool) : is_bool a a = true.
Proof. destruct a as [[|]|]; reflexivity. Qed.

Lemma is_string_refl (a : option string) : is_string a a = true.
Proof. destruct a as [a|]; simpl; [apply String.eqb_refl | reflexivity]. Qed.

(** [Object.is(n, n)] holds for every number, [NaN] included. *)
Lemma is_number_refl (a : option number) : is_number a a = true.
Proof.
  destruct a as [f|]; simpl; [| reflexivity].
  destruct (PrimFloat.eqb f f); simpl.
  - apply Bool.eqb_reflx.
  - reflexivity.
Qed.

(** A render that changes no entry of the dependency list leaves the spring
    with the object it had, whatever else changed in the props. *)
Lemma rerender_keeps_installed (m : Mounted AnimationConfig)
  (samePoints : bool) (props : LineProps) (draggingId : option string) :
  sameDeps samePoints (last_props m) (defaultProps props)
    (last_draggingId m) draggingId = true ->
  installed (rerender m samePoints props draggingId) = installed m.
Proof.
  intros Hsame. unfold Line.rerender; simpl. now rewrite Hsame.
Qed.

(** A render that changes an entry of the dependency list gives the spring
    the object of this render. *)
Lemma rerender_refreshes_installed (m : Mounted AnimationConfig)
  (samePoints : bool) (props : LineProps) (draggingId : option string) :
  sameDeps samePoints (last_props m) (defaultProps props)
    (last_draggingId m) draggingId = false ->
  installed (rerender m samePoints props draggingId) =
    vertices_spring (Line.Line animationConfig getCurvePoints props draggingId).
Proof.
  intros Hchanged. unfold Line.rerender; simpl. now rewrite Hchanged.
Qed.

(** [curved] is not an entry of the dependency list. *)
Lemma curved_is_no_dependency (props : LineProps) (c1 c2 : bool)
  (draggingId : option string) :
  sameDeps true (defaultProps (with_curved c1 props))
    (defaultProps (with_curved c2 props)) draggingId draggingId = true.
Proof.
  unfold sameDeps; simpl.
  now rewrite is_bool_refl, is_string_refl, is_number_refl.
Qed.

(** C5, the code at the failing input: a line is mounted with [curved]
    false and rendered again with [curved] true and nothing else changed.
    The props now say curved, but no entry of the dependency list changed,
    so the spring still holds the [onChange] of the first render: for every
    frame the curve it hands to the constructor of the tube is the two
    endpoint vectors alone, and what [getCurvePoints] returns is not used. *)
Theorem Line_toggle_curved_keeps_straight_curve :
  forall (props : LineProps) (draggingId : option string)
         (event : Frame) (current : Geometry),
    let first := mount (with_curved false props) draggingId in
    let second := rerender first true (with_curved true props) draggingId in
    curved (last_props second) = Some true
    /\ installed second = installed first
    /\ exists arguments,
         onChange (installed second) event (Some current)
           = CopyNewTube current arguments
         /\ curve_points (path arguments) =
              [Vector3_new (fromVertices event);
               Vector3_new (toVertices event)].
Proof.
  intros props draggingId event current first second.
  assert (Hkept : installed second = installed first).
  { subst second. apply rerender_keeps_installed.
    subst first. cbn [Line.mount last_props last_draggingId].
    apply curved_is_no_dependency. }
  split; [reflexivity |].
  split; [exact Hkept |].
  rewrite Hkept. subst first. cbn [Line.mount installed].
  eexists. split.
  - apply onChange_builds_tube.
  - reflexivity.
Qed.






End LineRerender.

(** ** [getCurvePoints] as the spec describes it *)

Section CurvedLine.
Import Line.

Variable aux : Vector3 -> Vector3 -> list Vector3.

(** The modelled [getCurvePoints] starts and ends at the two endpoints. *)
Lemma getCurvePoints_ends (a b d : Vector3) :
  hd_error (Utils.getCurvePoints aux a b) = Some a
  /\ last (Utils.getCurvePoints aux a b) d = b.
Proof.
  split; [reflexivity |].
  unfold Utils.getCurvePoints.
  change (a :: aux a b ++ [b]) with ((a :: aux a b) ++ [b]).
  apply last_last.
Qed.

End CurvedLine.

(** * Properties of [GraphScene] *)

Section GraphSceneProperties.
Import GraphScene.

Variables Theme Graph NodeData EdgeData : Type.
Variables ContextMenu EdgeLabelPosition EdgeArrowPosition : Type.
Variables NodeCallback EdgeCallback GraphProps : Type.

Local Abbreviation Props :=
  (GraphSceneProps Theme ContextMenu EdgeLabelPosition EdgeArrowPosition
     NodeCallback EdgeCallback GraphProps).
Local Abbreviation State := (Store Graph NodeData EdgeData).

Implicit Types (props : Props) (state : State).

Lemma renderNode_ids props (ids : list string) :
  map (@node_key _ _ _) (map (renderNode props) ids) = ids
  /\ map (@node_prop_id _ _ _) (map (renderNode props) ids) = ids.
Proof.
  induction ids as [| n ids [IHkey IHid]]; simpl.
  - split; reflexivity.
  - rewrite IHkey, IHid. split; reflexivity.
Qed.

Lemma renderEdge_ids props (ids : list string) :
  map (@edge_key _ _ _ _ _) (map (renderEdge props) ids) = ids
  /\ map (@edge_prop_id _ _ _ _ _) (map (renderEdge props) ids) = ids.
Proof.
  induction ids as [| e ids [IHkey IHid]]; simpl.
  - split; reflexivity.
  - rewrite IHkey, IHid. split; reflexivity.
Qed.

(** C7: for every store state the scene holds one [Node] element per entry
    of the store's node list and one [Edge] element per entry of its edge
    list, in the order of the lists, each with the entry's id as [key] and
    as [id]; every [Node] and every [Edge] gets the same [theme],
    [animated] and [disabled], and every [Edge] the same label and arrow
    placement. *)
Theorem GraphScene_one_element_per_id :
  forall props state,
    let scene := GraphScene props state in
    map (@node_key _ _ _) (node_elements scene) = map (@node_id _) (nodes state)
    /\ map (@node_prop_id _ _ _) (node_elements scene)
         = map (@node_id _) (nodes state)
    /\ map (@edge_key _ _ _ _ _) (edge_elements scene)
         = map (@edge_id _) (edges state)
    /\ map (@edge_prop_id _ _ _ _ _) (edge_elements scene)
         = map (@edge_id _) (edges state)
    /\ Forall (fun el =>
                 node_theme el = theme props
                 /\ node_animated el = animated props
                 /\ node_disabled el = disabled props)
         (node_elements scene)
    /\ Forall (fun el =>
                 edge_theme el = theme props
                 /\ edge_animated el = animated props
                 /\ edge_disabled el = disabled props
                 /\ edge_labelPlacement el = edgeLabelPosition props
                 /\ edge_arrowPlacement el = edgeArrowPosition props)
         (edge_elements scene).
Proof.
  intros props state scene; subst scene; unfold GraphScene, select; simpl.
  destruct (renderNode_ids props (map (@node_id _) (nodes state))) as [Hnk Hni].
  destruct (renderEdge_ids props (map (@edge_id _) (edges state))) as [Hek Hei].
  repeat split; trivial.
  - apply Forall_forall. intros el Hel.
    apply in_map_iff in Hel. destruct Hel as (n & <- & _).
    repeat split.
  - apply Forall_forall. intros el Hel.
    apply in_map_iff in Hel. destruct Hel as (e & <- & _).
    repeat split.
Qed.

(** C8: the handle holds the graph of the store and a [centerGraph] that,
    called without ids, has the camera frame all nodes of the store and,
    called with a list of ids, exactly the nodes whose id is in the list. *)
Theorem GraphScene_handle_centers :
  forall props state,
    let h := handle props state in
    ref_graph h = graph state
    /\ focus (centerGraph h None) = nodes state
    /\ (forall (ids : list string) (n : InternalGraphNode NodeData),
          In n (focus (centerGraph h (Some ids))) <->
          In n (nodes state) /\ In (node_id n) ids).
Proof.
  intros props state h; subst h; unfold handle, select; simpl.
  split; [reflexivity |].
  split; [reflexivity |].
  intros ids n. rewrite filter_In, existsb_exists.
  split.
  - intros [Hn (i & Hi & Heq)]. apply String.eqb_eq in Heq. now subst i.
  - intros [Hn Hid]. split; trivial.
    exists (node_id n). split; trivial. apply String.eqb_refl.
Qed.

End GraphSceneProperties.

(** * The properties at concrete inputs *)

Section Instances.
Import JS.
Import Handler.
Import Line.
Import Examples.
Import Observe.

Local Abbreviation gcp := (Utils.getCurvePoints midpoint).

(** An animated line while node ["n-1"] is dragged. *)
Lemma Line_drag_endpoints_immediate_witness :
  truthy_string (Some "n-1"%string) = true
  /\ verticesDuration tt gcp (full bothEnds) (Some "n-1"%string)
       = Some 0%float.
Proof.
  split.
  - reflexivity.
  - apply (Line_drag_endpoints_immediate tt gcp (full bothEnds)
             (Some "n-1"%string)).
    reflexivity.
Defined.

(** The store test is [!draggingId]: a drag of a node whose id is the
    empty string does not count as one. *)
Remark Line_empty_dragging_id :
  verticesDuration tt gcp (full bothEnds) (Some ""%string) = None.
Proof. reflexivity. Qed.

(** The claim of C6 fails for an animated line during a drag: the
    endpoints are immediate, the opacity is still animated. *)
Lemma Line_opacity_animated_during_drag :
  truthy_string (Some "n-1"%string) = true
  /\ verticesDuration tt gcp (full bothEnds) (Some "n-1"%string)
       = Some 0%float
  /\ opacityDuration tt gcp (full bothEnds) (Some "n-1"%string) = None
  /\ opacityDuration tt gcp (full bothEnds) (Some "n-1"%string)
       <> Some 0%float.
Proof.
  repeat split; try reflexivity.
  discriminate.
Qed.

(** A line without endpoints: both ends of the tube are at the origin. *)
Lemma Line_missing_endpoint_is_origin_witness :
  from (points (bare noEnds)) = None
  /\ to (points (bare noEnds)) = None
  /\ Vector3_new
       (fromVertices (vertices_to (vertices_spring (line (bare noEnds) None))))
     = origin
  /\ Vector3_new
       (toVertices (vertices_to (vertices_spring (line (bare noEnds) None))))
     = origin.
Proof.
  destruct (Line_missing_endpoint_is_origin tt gcp (bare noEnds) None mounted)
    as (Hfrom & Hto & _).
  split; [reflexivity |].
  split; [reflexivity |].
  split.
  - apply Hfrom. reflexivity.
  - apply Hto. reflexivity.
Defined.

(** The same line, run: the constructor is handed the segment from the
    origin to the origin, of radius 0.5. *)
Remark Line_missing_endpoints_sample :
  onChange (vertices_spring (line (bare noEnds) None))
    (vertices_to (vertices_spring (line (bare noEnds) None))) (Some mounted)
  = CopyNewTube mounted
      {| path := {| curve_points := [origin; origin] |};
         tubularSegments := 20;
         radius := 0.5%float;
         radialSegments := 5;
         closed := false |}.
Proof. vm_compute. reflexivity. Qed.


Lemma Line_right_button_opens_context_menu_witness :
  onContextMenu (full bothEnds) = Some (HostFn 2)
  /\ (buttons rightButton = 2%N <->
        invoked OnContextMenu
          (trace (mesh_onPointerDown (mesh (line (full bothEnds) None))
                    rightButton))
        /\ stopped
             (trace (mesh_onPointerDown (mesh (line (full bothEnds) None))
                       rightButton))
        /\ ~ invoked OnClick
               (trace (mesh_onPointerDown (mesh (line (full bothEnds) None))
                         rightButton)))
  /\ outcome (mesh_onPointerDown (mesh (line (full bothEnds) None))
                rightButton) = Normal tt.
Proof.
  split.
  - reflexivity.
  - destruct (Line_right_button_opens_context_menu tt gcp (full bothEnds) None
                rightButton) as (_ & _ & Hgiven).
    apply (Hgiven (HostFn 2)). reflexivity.
Defined.

(** The two handlers on the sample line, run. *)
Remark Line_pointer_down_runs :
  mesh_onPointerDown (mesh (line (full bothEnds) None)) rightButton
    = ([StopPropagation; Invoke OnContextMenu (HostFn 2) []], Normal tt)
  /\ mesh_onPointerDown (mesh (line (full bothEnds) None)) leftButton
       = ([], Normal tt)
  /\ mesh_onClick (mesh (line (full bothEnds) None)) = Some (HostFn 0).
Proof. repeat split. Qed.

Lemma Line_unguarded_callbacks_throw_witness :
  onActive (bare bothEnds) = None
  /\ onContextMenu (bare bothEnds) = None
  /\ mesh_onPointerOver (mesh (line (bare bothEnds) None))
       = ([], Throw (TypeError "not a function"))
  /\ mesh_onPointerDown (mesh (line (bare bothEnds) None)) rightButton
       = ([StopPropagation], Throw (TypeError "not a function")).
Proof.
  destruct (Line_unguarded_callbacks_throw tt gcp (bare bothEnds) None
              eq_refl eq_refl) as (Hover & _ & Hdown).
  split; [reflexivity |].
  split; [reflexivity |].
  split.
  - exact Hover.
  - apply Hdown. reflexivity.
Defined.

(** A line rendered with [curved] true from the start: the curve handed to
    the constructor runs through the midpoint. *)
Remark Line_curved_sample :
  onChange (vertices_spring (line (with_curved true (full bothEnds)) None))
    frame (Some mounted)
  = CopyNewTube mounted
      {| path := {| curve_points :=
                      [v 1%float 2%float 3%float;
                       v 2.5%float 3.5%float 4.5%float;
                       v 4%float 5%float 6%float] |};
         tubularSegments := 20;
         radius := 0.5%float;
         radialSegments := 5;
         closed := false |}.
Proof. vm_compute. reflexivity. Qed.

(** The sample line mounted straight and rendered again with [curved] true,
    the same [points] object and nothing else changed: the constructor is
    still handed the two endpoints alone. *)
Remark Line_toggle_curved_sample :
  let first := Line.mount tt gcp (full bothEnds) None in
  let second := Line.rerender tt gcp first true
                  (with_curved true (full bothEnds)) None in
  curved (last_props second) = Some true
  /\ onChange (installed second) frame (Some mounted)
     = CopyNewTube mounted
         {| path := {| curve_points :=
                         [v 1%float 2%float 3%float;
                          v 4%float 5%float 6%float] |};
            tubularSegments := 20;
            radius := 0.5%float;
            radialSegments := 5;
            closed := false |}.
Proof. split; vm_compute; reflexivity. Qed.

(** An animated line on which a drag begins and ends: the duration held
    by the spring goes to 0 and back. *)
Remark Line_drag_begins_and_ends_sample :
  let dragging :=
    {| update_props := full bothEnds;
       update_draggingId := Some "n-1"%string;
       update_samePoints := true |} in
  let idle :=
    {| update_props := full bothEnds;
       update_draggingId := None;
       update_samePoints := true |} in
  let first := Line.mount tt gcp (full bothEnds) None in
  duration (vertices_config (installed first)) = None
  /\ duration (vertices_config
                 (installed (Line.rerenders tt gcp first [dragging])))
     = Some 0%float
  /\ duration (vertices_config
                 (installed (Line.rerenders tt gcp first [dragging; idle])))
     = None.
Proof. repeat split. Qed.

(** A change of [size], which is an entry of the dependency list, is picked
    up by the next render, and [curved] with it. *)
Remark Line_toggle_curved_and_size_sample :
  let first := Line.mount tt gcp (full bothEnds) None in
  let second := Line.rerender tt gcp first true thickCurved None in
  onChange (installed second) frame (Some mounted)
  = CopyNewTube mounted
      {| path := {| curve_points :=
                      [v 1%float 2%float 3%float;
                       v 2.5%float 3.5%float 4.5%float;
                       v 4%float 5%float 6%float] |};
         tubularSegments := 20;
         radius := 1%float;
         radialSegments := 5;
         closed := false |}.
Proof. vm_compute. reflexivity. Qed.

(** On the sample line a right click is seen by [onContextMenu] only, and
    a left press by no callback at all. *)
Remark Line_pointer_down_calls :
  let tr e := trace (mesh_onPointerDown (mesh (line (full bothEnds) None)) e) in
  invokedb OnContextMenu (tr rightButton) = true
  /\ invokedb OnClick (tr rightButton) = false
  /\ invokedb OnContextMenu (tr leftButton) = false
  /\ invokedb OnClick (tr leftButton) = false.
Proof. repeat split. Qed.

(** [|| 0] replaces a z that is [NaN] or zero, and keeps any other. *)
Remark target_samples :
  target (Some (v 1%float 2%float PrimFloat.nan))
    = [Some 1%float; Some 2%float; Some 0%float]
  /\ target (Some (v 1%float 2%float (-0)%float))
       = [Some 1%float; Some 2%float; Some 0%float]
  /\ target (Some (v 1%float 2%float 3%float))
       = [Some 1%float; Some 2%float; Some 3%float]
  /\ target None = [None; None; Some 0%float].
Proof. repeat split. Qed.

(** Before the geometry element is mounted [tubeRef.current] is [null]. *)
Remark Line_onChange_unmounted :
  onChange (vertices_spring (line (full bothEnds) None)) frame None
  = Thrown (TypeError "tubeRef.current is null").
Proof. reflexivity. Qed.

(** The sample scene: three nodes, one curved edge. *)
Remark GraphScene_sample :
  let scene := GraphScene.GraphScene sceneProps store in
  map (@GraphScene.node_key _ _ _) (GraphScene.node_elements scene)
    = ["a"; "b"; "c"]%string
  /\ map (@GraphScene.edge_key _ _ _ _ _) (GraphScene.edge_elements scene)
       = ["a->b"]%string
  /\ map (@GraphScene.edge_curved _ _ _ _ _) (GraphScene.edge_elements scene)
       = [true].
Proof. repeat split. Qed.

(** Centering the sample scene on ["c"] and ["a"]. *)
Remark GraphScene_center_sample :
  let h := GraphScene.handle sceneProps store in
  map (@GraphScene.node_id _)
    (GraphScene.focus (GraphScene.centerGraph h (Some ["c"; "a"]%string)))
    = ["a"; "c"]%string
  /\ map (@GraphScene.node_id _)
       (GraphScene.focus (GraphScene.centerGraph h None))
       = ["a"; "b"; "c"]%string.
Proof. repeat split. Qed.

End Instances.

(** * Further properties of [Line] *)

Section LineSprings.
Import JS.
Import Handler.
Import Line.
Import Observe.

Variable AnimationConfig : Type.
Variable animationConfig : AnimationConfig.
Variable getCurvePoints : Vector3 -> Vector3 -> list Vector3.

Local Abbreviation Line := (Line.Line animationConfig getCurvePoints).
Local Abbreviation verticesDuration :=
  (Line.verticesDuration animationConfig getCurvePoints).
Local Abbreviation opacityDuration :=
  (Line.opacityDuration animationConfig getCurvePoints).

Lemma opacityDuration_eq props draggingId :
  opacityDuration props draggingId =
    if truthy_bool (animated props) then None else Some 0%float.
Proof. reflexivity. Qed.

(** The endpoints are animated (their spring has no fixed duration) exactly
    when [animated] is true and no drag is going on; in every other case the
    duration is 0. *)
Theorem Line_endpoints_animated_iff :
  forall (props : LineProps) (draggingId : option string),
    (verticesDuration props draggingId = None <->
       animated props = Some true /\ truthy_string draggingId = false)
    /\ (verticesDuration props draggingId = None
        \/ verticesDuration props draggingId = Some 0%float).
Proof.
  intros props draggingId.
  rewrite (verticesDuration_eq animationConfig getCurvePoints).
  destruct (animated props) as [[|]|];
    destruct (truthy_string draggingId); simpl;
    (split; [split; [intros H | intros [Ha Hd]] | auto]);
    try discriminate; auto.
Qed.

(** Whenever the opacity is immediate the endpoints are immediate too: the
    endpoints are never animated on a line whose opacity is not. *)
Theorem Line_opacity_immediate_then_endpoints_immediate :
  forall (props : LineProps) (draggingId : option string),
    opacityDuration props draggingId = Some 0%float ->
    verticesDuration props draggingId = Some 0%float.
Proof.
  intros props draggingId.
  rewrite opacityDuration_eq, (verticesDuration_eq animationConfig getCurvePoints).
  destruct (truthy_bool (animated props)); simpl.
  - discriminate.
  - trivial.
Qed.


(** The opacity starts at 0 and goes to the [opacity] prop, to 1 when the
    prop is left out: a line fades in when it is mounted. *)
Theorem Line_opacity_fades_in :
  forall (props : LineProps) (draggingId : option string),
    let s := material_opacity (mesh (Line props draggingId)) in
    opacity_from s = {| lineOpacity := Some 0%float |}
    /\ exists o,
         opacity_to s = {| lineOpacity := Some o |}
         /\ (forall given, opacity props = Some given -> o = given)
         /\ (opacity props = None -> o = 1%float).
Proof.
  intros props draggingId s; subst s; simpl.
  split; [reflexivity |].
  destruct (opacity props) as [given|]; simpl.
  - exists given. repeat split; congruence.
  - exists 1%float. repeat split; congruence.
Qed.

Lemma or_number_zero_not_NaN (o : option number) :
  isNaN (or_number o 0%float) = false.
Proof.
  unfold isNaN, or_number.
  destruct o as [f|]; [| reflexivity].
  destruct (truthy_number f) eqn:Htruthy; [| reflexivity].
  unfold truthy_number in Htruthy.
  apply andb_prop in Htruthy. destruct Htruthy as [_ Hself].
  now rewrite Hself.
Qed.

(** Each target has three components, and its z component is always a
    number that is not [NaN], whether the endpoint is present, lacks a
    usable z, or is missing altogether. *)
Theorem Line_target_z_is_a_number :
  forall (props : LineProps) (draggingId : option string),
    let goal := vertices_to (vertices_spring (Line props draggingId)) in
    List.length (fromVertices goal) = 3
    /\ List.length (toVertices goal) = 3
    /\ exists zf zt,
         component 2 (fromVertices goal) = Some zf
         /\ component 2 (toVertices goal) = Some zt
         /\ isNaN zf = false
         /\ isNaN zt = false.
Proof.
  intros props draggingId goal.
  destruct (Line_targets animationConfig getCurvePoints props draggingId)
    as [Hf Ht].
  fold goal in Hf, Ht. rewrite Hf, Ht.
  split; [reflexivity |].
  split; [reflexivity |].
  do 2 eexists.
  split; [reflexivity |].
  split; [reflexivity |].
  split; apply or_number_zero_not_NaN.
Qed.

(** For an endpoint that is present, x and y reach the spring as they are,
    and z does when it is truthy; a z that is [0], [-0] or [NaN] is replaced
    by 0. *)
Theorem Line_present_endpoint_target :
  forall (props : LineProps) (draggingId : option string),
    let goal := vertices_to (vertices_spring (Line props draggingId)) in
    (forall p, from (points props) = Some p ->
       fromVertices goal =
         [Some (x p); Some (y p);
          Some (if truthy_number (z p) then z p else 0%float)])
    /\ (forall q, to (points props) = Some q ->
          toVertices goal =
            [Some (x q); Some (y q);
             Some (if truthy_number (z q) then z q else 0%float)]).
Proof.
  intros props draggingId goal.
  destruct (Line_targets animationConfig getCurvePoints props draggingId)
    as [Hf Ht].
  fold goal in Hf, Ht.
  split.
  - intros p Hp. rewrite Hf, Hp. reflexivity.
  - intros q Hq. rewrite Ht, Hq. reflexivity.
Qed.

End LineSprings.

(** * Further properties of the handlers and the defaults of [Line] *)

Section LineHandlers.
Import JS.
Import Handler.
Import Line.
Import Observe.

Variable AnimationConfig : Type.
Variable animationConfig : AnimationConfig.
Variable getCurvePoints : Vector3 -> Vector3 -> list Vector3.

Local Abbreviation Line := (Line.Line animationConfig getCurvePoints).

(** What [f?.()] leaves in the trace. *)
Lemma call_opt_run (s : slot) (f : option callback) :
  call_opt s f [] =
    (match f with Some g => [Invoke s g []] | None => [] end, Normal tt).
Proof. destruct f; reflexivity. Qed.

(** On a line with [onActive], hovering reports the activation first:
    pointer-over calls [onActive(true)] and then [onPointerOver] if there is
    one, pointer-out calls [onActive(false)] and then [onPointerOut] if there
    is one; nothing else is called and neither handler throws. *)
Theorem Line_hover_activates_first :
  forall (props : LineProps) (draggingId : option string) (f : callback),
    onActive props = Some f ->
    let m := mesh (Line props draggingId) in
    mesh_onPointerOver m =
      (Invoke OnActive f [true]
         :: match onPointerOver props with
            | Some g => [Invoke OnPointerOver g []]
            | None => []
            end,
       Normal tt)
    /\ mesh_onPointerOut m =
         (Invoke OnActive f [false]
            :: match onPointerOut props with
               | Some g => [Invoke OnPointerOut g []]
               | None => []
               end,
          Normal tt).
Proof.
  intros props draggingId f Hactive m; subst m; simpl.
  unfold handlePointerOver, handlePointerOut.
  rewrite Hactive, !call_opt_run.
  split; reflexivity.
Qed.

(** The host's [onPointerOver] is reached exactly when both it and
    [onActive] were given, and likewise [onPointerOut]: without [onActive]
    the handler throws before it gets there.  A hover handler throws exactly
    when [onActive] is missing. *)
Theorem Line_hover_callback_needs_onActive :
  forall (props : LineProps) (draggingId : option string),
    let m := mesh (Line props draggingId) in
    (invoked OnPointerOver (trace (mesh_onPointerOver m)) <->
       onActive props <> None /\ onPointerOver props <> None)
    /\ (invoked OnPointerOut (trace (mesh_onPointerOut m)) <->
          onActive props <> None /\ onPointerOut props <> None)
    /\ (throws (mesh_onPointerOver m) = true <-> onActive props = None)
    /\ (throws (mesh_onPointerOut m) = true <-> onActive props = None).
Proof.
  intros props draggingId m; subst m; simpl.
  rewrite <- !invokedb_spec.
  unfold handlePointerOver, handlePointerOut.
  destruct (onActive props) as [f|];
    destruct (onPointerOver props) as [g|];
    destruct (onPointerOut props) as [h|];
    cbn;
    repeat split;
    try discriminate; try reflexivity;
    try (intros [Ha Hb]; first [now contradiction Ha | now contradiction Hb]);
    try (intros H; discriminate H).
Qed.

(** The hover handlers never stop the propagation of the event and never
    call [onClick] or [onContextMenu]; [onClick] goes to the mesh as it is,
    also when it is undefined. *)
Theorem Line_hover_is_passive :
  forall (props : LineProps) (draggingId : option string),
    let m := mesh (Line props draggingId) in
    Forall (fun run : Handler.t unit =>
              ~ stopped (trace run)
              /\ ~ invoked OnClick (trace run)
              /\ ~ invoked OnContextMenu (trace run))
      [mesh_onPointerOver m; mesh_onPointerOut m]
    /\ mesh_onClick m = onClick props.
Proof.
  intros props draggingId m; subst m; simpl.
  split; [| reflexivity].
  unfold handlePointerOver, handlePointerOut, stopped.
  repeat constructor;
    destruct (onActive props) as [f|];
    destruct (onPointerOver props) as [g|];
    destruct (onPointerOut props) as [h|];
    cbn; try no_call;
    intros Hin; repeat (destruct Hin as [Hin | Hin]; try discriminate Hin);
    try contradiction.
Qed.

(** The pointer-down handler throws exactly on a right-button press on a
    line without [onContextMenu]. *)
Theorem Line_pointer_down_throws_iff :
  forall (props : LineProps) (draggingId : option string)
         (event : PointerEvent),
    throws (mesh_onPointerDown (mesh (Line props draggingId)) event) = true
    <-> buttons event = 2%N /\ onContextMenu props = None.
Proof.
  intros props draggingId event; simpl.
  destruct (handlePointerDown_cases (onContextMenu props) event)
    as [[Hright ->] | [Hother ->]].
  - destruct (onContextMenu props) as [f|]; cbn.
    + split; [discriminate | intros [_ H]; discriminate H].
    + split; auto.
  - cbn. split; [discriminate | intros [H _]; contradiction].
Qed.

(** Any [buttons] value other than 2 is ignored: the handler calls nothing,
    does not stop the propagation and does not throw, with or without an
    [onContextMenu]; this includes the right button held with another one. *)
Theorem Line_other_buttons_do_nothing :
  forall (props : LineProps) (draggingId : option string)
         (event : PointerEvent),
    buttons event <> 2%N ->
    mesh_onPointerDown (mesh (Line props draggingId)) event = ([], Normal tt).
Proof.
  intros props draggingId event Hother; simpl.
  destruct (handlePointerDown_cases (onContextMenu props) event)
    as [[Hright _] | [_ ->]].
  - contradiction.
  - reflexivity.
Qed.

(** Leaving [curved] out is the same as passing [curved = false]. *)
Theorem Line_curved_defaults_to_false :
  forall (props : LineProps) (draggingId : option string),
    curved props = None ->
    Line props draggingId = Line (with_curved false props) draggingId.
Proof.
  intros [c s a i o cv pts k1 k2 k3 k4 k5] draggingId Hcurved.
  simpl in Hcurved. subst cv. reflexivity.
Qed.

(** Passing the default values explicitly is the same as leaving the props
    out: rendering with the defaults filled in gives the same result as
    rendering the props as they are. *)
Theorem Line_defaults_are_idempotent :
  forall (props : LineProps) (draggingId : option string),
    defaultProps (defaultProps props) = defaultProps props
    /\ Line (defaultProps props) draggingId = Line props draggingId.
Proof.
  intros props draggingId.
  assert (Hidem : defaultProps (defaultProps props) = defaultProps props).
  { destruct props as [[c|] [s|] a i [o|] [cv|] pts k1 k2 k3 k4 k5];
      reflexivity. }
  split; [exact Hidem |].
  unfold Line.Line. now rewrite Hidem.
Qed.

End LineHandlers.

(** * Further properties of [GraphScene] *)

Section GraphSceneElements.
Import GraphScene.

Variables Theme Graph NodeData EdgeData : Type.
Variables ContextMenu EdgeLabelPosition EdgeArrowPosition : Type.
Variables NodeCallback EdgeCallback GraphProps : Type.

Local Abbreviation Props :=
  (GraphSceneProps Theme ContextMenu EdgeLabelPosition EdgeArrowPosition
     NodeCallback EdgeCallback GraphProps).
Local Abbreviation State := (Store Graph NodeData EdgeData).

Implicit Types (props : Props) (state : State).

(** Every edge is curved exactly when [edgeShape] is ['curve']; with
    [edgeShape] left out (it defaults to ['line']) or set to any other
    string, no edge is. *)
Theorem GraphScene_edges_curved_iff_curve :
  forall props state,
    Forall (fun el => edge_curved el = true <->
                      edgeShape props = Some "curve"%string)
      (edge_elements (GraphScene props state)).
Proof.
  intros props state. apply Forall_forall. intros el Hel.
  unfold GraphScene, select in Hel; simpl in Hel.
  apply in_map_iff in Hel. destruct Hel as (e & <- & _).
  unfold renderEdge; simpl.
  destruct (edgeShape props) as [shape|].
  - rewrite String.eqb_eq. split; congruence.
  - simpl. split; discriminate.
Qed.

(** The scene is a function of the id lists: two store states that list the
    same node ids and the same edge ids give the same elements, whatever the
    nodes and edges carry besides, and whatever the graph and the drag state
    are. *)
Theorem GraphScene_depends_on_ids_only :
  forall props (s1 s2 : State),
    map (@node_id _) (nodes s1) = map (@node_id _) (nodes s2) ->
    map (@edge_id _) (edges s1) = map (@edge_id _) (edges s2) ->
    GraphScene props s1 = GraphScene props s2.
Proof.
  intros props s1 s2 Hnodes Hedges.
  unfold GraphScene, select.
  now rewrite Hnodes, Hedges.
Qed.

(** Rendering distributes over the store lists: the elements for nodes
    (edges) appended to the store come after the elements of the nodes
    (edges) already there, which stay as they were. *)
Theorem GraphScene_appends :
  forall props (g : Graph) (d : option string)
         (ns1 ns2 : list (InternalGraphNode NodeData))
         (es1 es2 : list (InternalGraphEdge EdgeData)),
    let scene ns es :=
      GraphScene props
        {| graph := g; nodes := ns; edges := es; draggingId := d |} in
    node_elements (scene (ns1 ++ ns2) (es1 ++ es2))
      = node_elements (scene ns1 es1) ++ node_elements (scene ns2 es2)
    /\ edge_elements (scene (ns1 ++ ns2) (es1 ++ es2))
         = edge_elements (scene ns1 es1) ++ edge_elements (scene ns2 es2).
Proof.
  intros props g d ns1 ns2 es1 es2 scene; subst scene.
  unfold GraphScene, select; simpl.
  now rewrite !map_app.
Qed.

End GraphSceneElements.

(** * The further properties at concrete inputs *)

Section MoreInstances.
Import JS.
Import Handler.
Import Line.
Import Examples.
Import Observe.

Local Abbreviation gcp := (Utils.getCurvePoints midpoint).

(** A line that is not animated, during a drag and without one. *)
Lemma Line_opacity_immediate_then_endpoints_immediate_witness :
  opacityDuration tt gcp (bare bothEnds) None = Some 0%float
  /\ verticesDuration tt gcp (bare bothEnds) None = Some 0%float.
Proof.
  split.
  - reflexivity.
  - apply (Line_opacity_immediate_then_endpoints_immediate tt gcp
             (bare bothEnds) None).
    reflexivity.
Defined.

Lemma Line_present_endpoint_target_witness :
  fromVertices (vertices_to (vertices_spring (line (full bothEnds) None)))
    = [Some 1%float; Some 2%float; Some 3%float]
  /\ toVertices (vertices_to (vertices_spring (line (full bothEnds) None)))
       = [Some 4%float; Some 5%float; Some 6%float].
Proof.
  destruct (Line_present_endpoint_target tt gcp (full bothEnds) None)
    as [Hfrom Hto].
  split.
  - apply (Hfrom (v 1%float 2%float 3%float)). reflexivity.
  - apply (Hto (v 4%float 5%float 6%float)). reflexivity.
Defined.

Lemma Line_hover_activates_first_witness :
  onActive (full bothEnds) = Some (HostFn 1)
  /\ mesh_onPointerOver (mesh (line (full bothEnds) None))
       = ([Invoke OnActive (HostFn 1) [true];
           Invoke OnPointerOver (HostFn 3) []], Normal tt)
  /\ mesh_onPointerOut (mesh (line (full bothEnds) None))
       = ([Invoke OnActive (HostFn 1) [false];
           Invoke OnPointerOut (HostFn 4) []], Normal tt).
Proof.
  split.
  - reflexivity.
  - apply (Line_hover_activates_first tt gcp (full bothEnds) None
             (f := HostFn 1)).
    reflexivity.
Defined.

(** Left and right button together, on a line without [onContextMenu]. *)
Lemma Line_other_buttons_do_nothing_witness :
  buttons leftAndRight <> 2%N
  /\ mesh_onPointerDown (mesh (line (bare bothEnds) None)) leftAndRight
       = ([], Normal tt).
Proof.
  split.
  - discriminate.
  - apply (Line_other_buttons_do_nothing tt gcp (bare bothEnds) None
             leftAndRight).
    discriminate.
Defined.

Lemma Line_curved_defaults_to_false_witness :
  curved (bare bothEnds) = None
  /\ line (bare bothEnds) None = line (with_curved false (bare bothEnds)) None.
Proof.
  split.
  - reflexivity.
  - apply (Line_curved_defaults_to_false tt gcp (bare bothEnds) None).
    reflexivity.
Defined.

(** The sample store before and after its nodes moved. *)
Lemma GraphScene_depends_on_ids_only_witness :
  store <> storeMoved
  /\ GraphScene.GraphScene sceneProps store
       = GraphScene.GraphScene sceneProps storeMoved.
Proof.
  split.
  - discriminate.
  - apply (GraphScene_depends_on_ids_only sceneProps store storeMoved);
      reflexivity.
Defined.

End MoreInstances.

(** * The curve and [getCurvePoints], for any [getCurvePoints] *)

Section LineCurve.
Import JS.
Import Line.
Import Examples.

Variable AnimationConfig : Type.
Variable animationConfig : AnimationConfig.


End LineCurve.

Section CurveInstances.
Import JS.
Import Line.
Import Examples.


End CurveInstances.
